(** * SRTrueInteraction: the truth record of one simulated interaction

    A shallow embedding of [duneanaobj/StandardRecord/SRTrueInteraction.h]
    (namespace [caf]): the two scoped enumerations [Generator] and
    [ScatteringMode], the class [SRTrueInteraction] with its default member
    initialisers, and the only operations the class has, which are the
    implicit default constructor and reading or assigning a public data
    member.

    C++ scalars are modelled by their value sets:
    - [int] is a 32-bit two's complement integer, a [Z] in [-2^31, 2^31);
    - [unsigned int] is a [Z] in [0, 2^32);
    - [float] is an IEEE 754 binary32 datum, kept as its 32-bit pattern so
      that a NaN keeps its payload and its signaling/quiet bit. *)

From Stdlib Require Import ZArith List String Bool Lia Permutation.
From Stdlib Require SpecFloat.
Import ListNotations.

Local Open Scope Z_scope.

(* ================================================================== *)
(** ** Scalar types *)

Definition in_int (z : Z) : bool := (- 2 ^ 31 <=? z) && (z <? 2 ^ 31).

Definition in_uint (z : Z) : bool := (0 <=? z) && (z <? 2 ^ 32).

(** [int]: the values of the C++ type [int]. *)
Record int : Set := MkInt {
  int_val : Z;
  int_range : in_int int_val = true
}.

(** [uint]: the values of the C++ type [unsigned int]. *)
Record uint : Set := MkUInt {
  uint_val : Z;
  uint_range : in_uint uint_val = true
}.

(** [float]: the values of the C++ type [float], as binary32 bit patterns
    (bit 31 sign, bits 30..23 biased exponent, bits 22..0 fraction). *)
Record float : Set := MkFloat {
  float_bits : Z;
  float_range : in_uint float_bits = true
}.

(** Integer literals: the range check is discharged by evaluation. *)
Notation "'i32' z" := (MkInt z eq_refl) (at level 9, z at level 9).
Notation "'u32' z" := (MkUInt z eq_refl) (at level 9, z at level 9).

(** The integral conversion [int -> unsigned int]: reduction modulo 2^32. *)
Definition uint_of_int (i : int) : uint.
Proof.
  refine (MkUInt (int_val i mod 2 ^ 32) _).
  unfold in_uint.
  pose proof (Z.mod_pos_bound (int_val i) (2 ^ 32) eq_refl) as [Hlo Hhi].
  apply andb_true_intro; split; [apply Z.leb_le | apply Z.ltb_lt]; assumption.
Defined.

(** *** binary32 classification and comparison *)

Definition float_sign (x : float) : bool := Z.testbit (float_bits x) 31.

Definition float_exponent (x : float) : Z :=
  Z.land (Z.shiftr (float_bits x) 23) 255.

Definition float_fraction (x : float) : Z :=
  Z.land (float_bits x) (2 ^ 23 - 1).

(** [std::isnan]: all exponent bits set and a non-zero fraction. *)
Definition isnan (x : float) : bool :=
  (float_exponent x =? 255) && negb (float_fraction x =? 0).

(** A NaN is signaling when the leading fraction bit (bit 22) is clear
    (the IEEE 754-2008 encoding, used by x86, ARM, RISC-V and POWER). *)
Definition is_signaling_NaN (x : float) : bool :=
  isnan x && negb (Z.testbit (float_bits x) 22).

(** The number a bit pattern denotes, in the Standard Library's
    specification of IEEE 754 arithmetic ([prec = 24], [emax = 128]). *)
Definition float_decode (x : float) : SpecFloat.spec_float :=
  let s := float_sign x in
  let e := float_exponent x in
  let m := float_fraction x in
  if e =? 255 then
    if m =? 0 then SpecFloat.S754_infinity s else SpecFloat.S754_nan
  else if e =? 0 then
    match m with
    | Zpos p => SpecFloat.S754_finite s p (-149)
    | _ => SpecFloat.S754_zero s
    end
  else SpecFloat.S754_finite s (Z.to_pos (m + 2 ^ 23)) (e - 150).

(** The built-in [operator==] on two [float]s. *)
Definition float_eq (a b : float) : bool :=
  SpecFloat.SFeqb (float_decode a) (float_decode b).

(* ================================================================== *)
(** ** The enumerations *)

(** [enum class Generator], lines 17-23: the named enumerators. *)
Inductive GeneratorTag : Set :=
  | kUnknownGenerator
  | kGENIE
  | kGIBUU
  | kNEUT.

(** The enumerator values as written in the declaration. *)
Definition Generator_value (g : GeneratorTag) : int :=
  match g with
  | kUnknownGenerator => i32 0
  | kGENIE            => i32 1
  | kGIBUU            => i32 2
  | kNEUT             => i32 3
  end.

(** [enum class ScatteringMode], lines 30-47: the named enumerators. *)
Inductive ScatteringModeTag : Set :=
  | kUnknownMode
  | kQE
  | kRes
  | kDIS
  | kCoh
  | kCohElastic
  | kElectronScattering
  | kIMDAnnihilation
  | kInverseBetaDecay
  | kGlashowResonance
  | kAMNuGamma
  | kMEC
  | kDiffractive
  | kEM
  | kWeakMix.

Definition ScatteringMode_value (m : ScatteringModeTag) : int :=
  match m with
  | kUnknownMode        => i32 (-1)
  | kQE                 => i32 0
  | kRes                => i32 1
  | kDIS                => i32 2
  | kCoh                => i32 3
  | kCohElastic         => i32 4
  | kElectronScattering => i32 5
  | kIMDAnnihilation    => i32 6
  | kInverseBetaDecay   => i32 7
  | kGlashowResonance   => i32 8
  | kAMNuGamma          => i32 9
  | kMEC                => i32 10
  | kDiffractive        => i32 11
  | kEM                 => i32 12
  | kWeakMix            => i32 13
  end.

(** A scoped enumeration without an enum-base has the fixed underlying
    type [int], so an object of the enumeration type can hold every [int]
    value, named or not.  [Generator] and [ScatteringMode] are therefore
    wrappers around [int]; the constructor is [static_cast] from [int]. *)
Record Generator : Set := Generator_cast { Generator_underlying : int }.

Record ScatteringMode : Set :=
  ScatteringMode_cast { ScatteringMode_underlying : int }.

(** The enumerator [Generator::k...] as a value of the enumeration. *)
Definition Generator_enum (g : GeneratorTag) : Generator :=
  Generator_cast (Generator_value g).

(** The enumerator [ScatteringMode::k...] as a value of the enumeration. *)
Definition ScatteringMode_enum (m : ScatteringModeTag) : ScatteringMode :=
  ScatteringMode_cast (ScatteringMode_value m).

(** [static_cast<int>] of an enumeration value: the integer a file holds. *)
Definition Generator_int (g : Generator) : Z :=
  int_val (Generator_underlying g).

Definition ScatteringMode_int (m : ScatteringMode) : Z :=
  int_val (ScatteringMode_underlying m).

(* ================================================================== *)
(** ** Instances of the collaborator types

    [SRVector3D] and [SRTrueParticle] come from other headers and
    [signaling_NaN] from [<limits>]; the record below is parametrised by
    them.  The values here instantiate it in the closed statements that
    follow the general ones. *)

(** The pattern [0x7FA00000]: exponent all ones, quiet bit clear, payload
    bit 21 set. *)
Definition sNaN_7FA00000 : float := MkFloat 0x7FA00000 eq_refl.

(** The pattern [0x7FC00000], the default quiet NaN. *)
Definition qNaN_7FC00000 : float := MkFloat 0x7FC00000 eq_refl.

(** The pattern [0x3F800000], the number 1.0. *)
Definition float_one : float := MkFloat 0x3F800000 eq_refl.

(** Modelled from the spec: [SRVector3D.h] is not among the sources;
    section 4.3 describes the 3-vector as three floating-point components
    with no behaviour beyond storage. *)
Definition Vec3 : Set := (float * float * float)%type.

Definition Vec3_NaN : Vec3 := (sNaN_7FA00000, sNaN_7FA00000, sNaN_7FA00000).

(** [SRTrueParticle.h] is not among the sources and the record treats a
    daughter as opaque; this instance keeps a daughter's PDG code only. *)
Definition Daughter : Set := int.

(* ================================================================== *)
(** ** The record *)

(** The member types that occur in the class. *)
Inductive kind : Set :=
  | KBool
  | KInt
  | KUInt
  | KFloat
  | KMode
  | KGenerator
  | KVector3D
  | KVersion
  | KString
  | KParticles.

(** The data members of [SRTrueInteraction], by name, in declaration order. *)
Inductive field : Set :=
  | f_isvtxcont
  | f_pdg
  | f_pdgorig
  | f_iscc
  | f_mode
  | f_targetPDG
  | f_hitnuc
  | f_E
  | f_vtx
  | f_momentum
  | f_position
  | f_time
  | f_bjorkenX
  | f_inelasticity
  | f_Q2
  | f_q0
  | f_modq
  | f_W
  | f_t
  | f_baseline
  | f_npiplus
  | f_npiminus
  | f_npizero
  | f_nproton
  | f_nneutron
  | f_ischarm
  | f_isseaquark
  | f_resnum
  | f_xsec
  | f_genweight
  | f_prod_vtx
  | f_parent_dcy_mom
  | f_parent_dcy_mode
  | f_parent_pdg
  | f_parent_dcy_E
  | f_imp_weight
  | f_generator
  | f_genVersion
  | f_genConfigString
  | f_nprim
  | f_prim.

(** The declared type of each member, as a [kind]. *)
Definition field_kind (f : field) : kind :=
  match f with
  | f_isvtxcont       => KBool
  | f_pdg             => KInt
  | f_pdgorig         => KInt
  | f_iscc            => KBool
  | f_mode            => KMode
  | f_targetPDG       => KInt
  | f_hitnuc          => KInt
  | f_E               => KFloat
  | f_vtx             => KVector3D
  | f_momentum        => KVector3D
  | f_position        => KVector3D
  | f_time            => KFloat
  | f_bjorkenX        => KFloat
  | f_inelasticity    => KFloat
  | f_Q2              => KFloat
  | f_q0              => KFloat
  | f_modq            => KFloat
  | f_W               => KFloat
  | f_t               => KFloat
  | f_baseline        => KFloat
  | f_npiplus         => KUInt
  | f_npiminus        => KUInt
  | f_npizero         => KUInt
  | f_nproton         => KUInt
  | f_nneutron        => KUInt
  | f_ischarm         => KBool
  | f_isseaquark      => KBool
  | f_resnum          => KInt
  | f_xsec            => KFloat
  | f_genweight       => KFloat
  | f_prod_vtx        => KVector3D
  | f_parent_dcy_mom  => KVector3D
  | f_parent_dcy_mode => KInt
  | f_parent_pdg      => KInt
  | f_parent_dcy_E    => KFloat
  | f_imp_weight      => KFloat
  | f_generator       => KGenerator
  | f_genVersion      => KVersion
  | f_genConfigString => KString
  | f_nprim           => KInt
  | f_prim            => KParticles
  end.


(** Every data member, once. *)
Definition all_fields : list field :=
  [f_isvtxcont; f_pdg; f_pdgorig; f_iscc; f_mode; f_targetPDG;
   f_hitnuc; f_E; f_vtx; f_momentum; f_position; f_time; f_bjorkenX;
   f_inelasticity; f_Q2; f_q0; f_modq; f_W; f_t; f_baseline; f_npiplus;
   f_npiminus; f_npizero; f_nproton; f_nneutron; f_ischarm;
   f_isseaquark; f_resnum; f_xsec; f_genweight; f_prod_vtx;
   f_parent_dcy_mom; f_parent_dcy_mode; f_parent_pdg; f_parent_dcy_E;
   f_imp_weight; f_generator; f_genVersion; f_genConfigString; f_nprim;
   f_prim].

Scheme Equality for field.

(** The members of type [float], lines 70-104. *)
Definition scalar_float_fields : list field :=
  [f_E; f_time; f_bjorkenX; f_inelasticity; f_Q2; f_q0; f_modq; f_W; f_t;
   f_baseline; f_xsec; f_genweight; f_parent_dcy_E; f_imp_weight].

(** The members of type [unsigned int], lines 85-89. *)
Definition multiplicity_fields : list field :=
  [f_npiplus; f_npiminus; f_npizero; f_nproton; f_nneutron].

(** The members of type [int] other than the daughter count. *)
Definition signed_code_fields : list field :=
  [f_pdg; f_pdgorig; f_targetPDG; f_hitnuc; f_resnum; f_parent_dcy_mode;
   f_parent_pdg].

Definition plain_integer_fields : list field :=
  signed_code_fields ++ multiplicity_fields.

(** The members of type [bool]. *)
Definition boolean_fields : list field :=
  [f_isvtxcont; f_iscc; f_ischarm; f_isseaquark].

Section SRTrueInteraction.

(** [SRVector3D] with the value its default constructor builds, and
    [SRTrueParticle]: declared in headers of their own. *)
Variable SRVector3D : Type.
Variable SRVector3D_default : SRVector3D.
Variable SRTrueParticle : Type.

(** Line 54: [static constexpr float NaN =
    std::numeric_limits<float>::signaling_NaN();].  The pattern the
    library returns is implementation-defined; it is a signaling NaN. *)
Variable NaN : float.
Hypothesis NaN_signaling : is_signaling_NaN NaN = true.

Definition kind_type (k : kind) : Type :=
  match k with
  | KBool      => bool
  | KInt       => int
  | KUInt      => uint
  | KFloat     => float
  | KMode      => ScatteringMode
  | KGenerator => Generator
  | KVector3D  => SRVector3D
  | KVersion   => list uint
  | KString    => string
  | KParticles => list SRTrueParticle
  end.

(** [class SRTrueInteraction], lines 50-113: the public data members in
    declaration order. *)
Record SRTrueInteraction : Type := mkSRTrueInteraction {
  isvtxcont       : bool;
  pdg             : int;
  pdgorig         : int;
  iscc            : bool;
  mode            : ScatteringMode;
  targetPDG       : int;
  hitnuc          : int;
  E               : float;
  vtx             : SRVector3D;
  momentum        : SRVector3D;
  position        : SRVector3D;
  time            : float;
  bjorkenX        : float;
  inelasticity    : float;
  Q2              : float;
  q0              : float;
  modq            : float;
  W               : float;
  t               : float;
  baseline        : float;
  npiplus         : uint;
  npiminus        : uint;
  npizero         : uint;
  nproton         : uint;
  nneutron        : uint;
  ischarm         : bool;
  isseaquark      : bool;
  resnum          : int;
  xsec            : float;
  genweight       : float;
  prod_vtx        : SRVector3D;
  parent_dcy_mom  : SRVector3D;
  parent_dcy_mode : int;
  parent_pdg      : int;
  parent_dcy_E    : float;
  imp_weight      : float;
  generator       : Generator;
  genVersion      : list uint;
  genConfigString : string;
  nprim           : int;
  prim            : list SRTrueParticle
}.

(** The implicit default constructor: every member takes its default
    member initialiser; a member without one ([SRVector3D],
    [std::vector], [std::string]) is default-constructed. *)
Definition SRTrueInteraction_default : SRTrueInteraction := {|
  isvtxcont       := false;
  pdg             := i32 0;
  pdgorig         := i32 0;
  iscc            := false;
  mode            := ScatteringMode_enum kUnknownMode;
  targetPDG       := i32 0;
  hitnuc          := i32 0;
  E               := NaN;
  vtx             := SRVector3D_default;
  momentum        := SRVector3D_default;
  position        := SRVector3D_default;
  time            := NaN;
  bjorkenX        := NaN;
  inelasticity    := NaN;
  Q2              := NaN;
  q0              := NaN;
  modq            := NaN;
  W               := NaN;
  t               := NaN;
  baseline        := NaN;
  npiplus         := u32 0;
  npiminus        := u32 0;
  npizero         := u32 0;
  nproton         := u32 0;
  nneutron        := u32 0;
  ischarm         := false;
  isseaquark      := false;
  resnum          := i32 0;
  xsec            := NaN;
  genweight       := NaN;
  prod_vtx        := SRVector3D_default;
  parent_dcy_mom  := SRVector3D_default;
  parent_dcy_mode := i32 (-1);
  parent_pdg      := i32 0;
  parent_dcy_E    := NaN;
  imp_weight      := NaN;
  generator       := Generator_enum kUnknownGenerator;
  genVersion      := [];
  genConfigString := EmptyString;
  nprim           := i32 0;
  prim            := []
|}.

(** The declared type of a member. *)
Definition field_type (f : field) : Type := kind_type (field_kind f).

(** Reading the member [f] of [r]: the expression [r.f]. *)
Definition get (f : field) : SRTrueInteraction -> field_type f :=
  match f with
  | f_isvtxcont       => isvtxcont
  | f_pdg             => pdg
  | f_pdgorig         => pdgorig
  | f_iscc            => iscc
  | f_mode            => mode
  | f_targetPDG       => targetPDG
  | f_hitnuc          => hitnuc
  | f_E               => E
  | f_vtx             => vtx
  | f_momentum        => momentum
  | f_position        => position
  | f_time            => time
  | f_bjorkenX        => bjorkenX
  | f_inelasticity    => inelasticity
  | f_Q2              => Q2
  | f_q0              => q0
  | f_modq            => modq
  | f_W               => W
  | f_t               => t
  | f_baseline        => baseline
  | f_npiplus         => npiplus
  | f_npiminus        => npiminus
  | f_npizero         => npizero
  | f_nproton         => nproton
  | f_nneutron        => nneutron
  | f_ischarm         => ischarm
  | f_isseaquark      => isseaquark
  | f_resnum          => resnum
  | f_xsec            => xsec
  | f_genweight       => genweight
  | f_prod_vtx        => prod_vtx
  | f_parent_dcy_mom  => parent_dcy_mom
  | f_parent_dcy_mode => parent_dcy_mode
  | f_parent_pdg      => parent_pdg
  | f_parent_dcy_E    => parent_dcy_E
  | f_imp_weight      => imp_weight
  | f_generator       => generator
  | f_genVersion      => genVersion
  | f_genConfigString => genConfigString
  | f_nprim           => nprim
  | f_prim            => prim
  end.

(** Assigning [v] to the member [f] of [r]: the statement [r.f = v;].
    The result is [r] with that one member replaced. *)
Definition set (f : field) : field_type f -> SRTrueInteraction -> SRTrueInteraction :=
  match f with
  | f_isvtxcont => fun v r =>
      mkSRTrueInteraction
        v (pdg r) (pdgorig r) (iscc r) (mode r) (targetPDG r) (hitnuc r)
        (E r) (vtx r) (momentum r) (position r) (time r) (bjorkenX r)
        (inelasticity r) (Q2 r) (q0 r) (modq r) (W r) (t r) (baseline r)
        (npiplus r) (npiminus r) (npizero r) (nproton r) (nneutron r)
        (ischarm r) (isseaquark r) (resnum r) (xsec r) (genweight r)
        (prod_vtx r) (parent_dcy_mom r) (parent_dcy_mode r)
        (parent_pdg r) (parent_dcy_E r) (imp_weight r) (generator r)
        (genVersion r) (genConfigString r) (nprim r) (prim r)
  | f_pdg => fun v r =>
      mkSRTrueInteraction
        (isvtxcont r) v (pdgorig r) (iscc r) (mode r) (targetPDG r)
        (hitnuc r) (E r) (vtx r) (momentum r) (position r) (time r)
        (bjorkenX r) (inelasticity r) (Q2 r) (q0 r) (modq r) (W r) (t r)
        (baseline r) (npiplus r) (npiminus r) (npizero r) (nproton r)
        (nneutron r) (ischarm r) (isseaquark r) (resnum r) (xsec r)
        (genweight r) (prod_vtx r) (parent_dcy_mom r)
        (parent_dcy_mode r) (parent_pdg r) (parent_dcy_E r)
        (imp_weight r) (generator r) (genVersion r) (genConfigString r)
        (nprim r) (prim r)
  | f_pdgorig => fun v r =>
      mkSRTrueInteraction
        (isvtxcont r) (pdg r) v (iscc r) (mode r) (targetPDG r)
        (hitnuc r) (E r) (vtx r) (momentum r) (position r) (time r)
        (bjorkenX r) (inelasticity r) (Q2 r) (q0 r) (modq r) (W r) (t r)
        (baseline r) (npiplus r) (npiminus r) (npizero r) (nproton r)
        (nneutron r) (ischarm r) (isseaquark r) (resnum r) (xsec r)
        (genweight r) (prod_vtx r) (parent_dcy_mom r)
        (parent_dcy_mode r) (parent_pdg r) (parent_dcy_E r)
        (imp_weight r) (generator r) (genVersion r) (genConfigString r)
        (nprim r) (prim r)
  | f_iscc => fun v r =>
      mkSRTrueInteraction
        (isvtxcont r) (pdg r) (pdgorig r) v (mode r) (targetPDG r)
        (hitnuc r) (E r) (vtx r) (momentum r) (position r) (time r)
        (bjorkenX r) (inelasticity r) (Q2 r) (q0 r) (modq r) (W r) (t r)
        (baseline r) (npiplus r) (npiminus r) (npizero r) (nproton r)
        (nneutron r) (ischarm r) (isseaquark r) (resnum r) (xsec r)
        (genweight r) (prod_vtx r) (parent_dcy_mom r)
        (parent_dcy_mode r) (parent_pdg r) (parent_dcy_E r)
        (imp_weight r) (generator r) (genVersion r) (genConfigString r)
        (nprim r) (prim r)
  | f_mode => fun v r =>
      mkSRTrueInteraction
        (isvtxcont r) (pdg r) (pdgorig r) (iscc r) v (targetPDG r)
        (hitnuc r) (E r) (vtx r) (momentum r) (position r) (time r)
        (bjorkenX r) (inelasticity r) (Q2 r) (q0 r) (modq r) (W r) (t r)
        (baseline r) (npiplus r) (npiminus r) (npizero r) (nproton r)
        (nneutron r) (ischarm r) (isseaquark r) (resnum r) (xsec r)
        (genweight r) (prod_vtx r) (parent_dcy_mom r)
        (parent_dcy_mode r) (parent_pdg r) (parent_dcy_E r)
        (imp_weight r) (generator r) (genVersion r) (genConfigString r)
        (nprim r) (prim r)
  | f_targetPDG => fun v r =>
      mkSRTrueInteraction
        (isvtxcont r) (pdg r) (pdgorig r) (iscc r) (mode r) v (hitnuc r)
        (E r) (vtx r) (momentum r) (position r) (time r) (bjorkenX r)
        (inelasticity r) (Q2 r) (q0 r) (modq r) (W r) (t r) (baseline r)
        (npiplus r) (npiminus r) (npizero r) (nproton r) (nneutron r)
        (ischarm r) (isseaquark r) (resnum r) (xsec r) (genweight r)
        (prod_vtx r) (parent_dcy_mom r) (parent_dcy_mode r)
        (parent_pdg r) (parent_dcy_E r) (imp_weight r) (generator r)
        (genVersion r) (genConfigString r) (nprim r) (prim r)
  | f_hitnuc => fun v r =>
      mkSRTrueInteraction
        (isvtxcont r) (pdg r) (pdgorig r) (iscc r) (mode r)
        (targetPDG r) v (E r) (vtx r) (momentum r) (position r) (time r)
        (bjorkenX r) (inelasticity r) (Q2 r) (q0 r) (modq r) (W r) (t r)
        (baseline r) (npiplus r) (npiminus r) (npizero r) (nproton r)
        (nneutron r) (ischarm r) (isseaquark r) (resnum r) (xsec r)
        (genweight r) (prod_vtx r) (parent_dcy_mom r)
        (parent_dcy_mode r) (parent_pdg r) (parent_dcy_E r)
        (imp_weight r) (generator r) (genVersion r) (genConfigString r)
        (nprim r) (prim r)
  | f_E => fun v r =>
      mkSRTrueInteraction
        (isvtxcont r) (pdg r) (pdgorig r) (iscc r) (mode r)
        (targetPDG r) (hitnuc r) v (vtx r) (momentum r) (position r)
        (time r) (bjorkenX r) (inelasticity r) (Q2 r) (q0 r) (modq r)
        (W r) (t r) (baseline r) (npiplus r) (npiminus r) (npizero r)
        (nproton r) (nneutron r) (ischarm r) (isseaquark r) (resnum r)
        (xsec r) (genweight r) (prod_vtx r) (parent_dcy_mom r)
        (parent_dcy_mode r) (parent_pdg r) (parent_dcy_E r)
        (imp_weight r) (generator r) (genVersion r) (genConfigString r)
        (nprim r) (prim r)
  | f_vtx => fun v r =>
      mkSRTrueInteraction
        (isvtxcont r) (pdg r) (pdgorig r) (iscc r) (mode r)
        (targetPDG r) (hitnuc r) (E r) v (momentum r) (position r)
        (time r) (bjorkenX r) (inelasticity r) (Q2 r) (q0 r) (modq r)
        (W r) (t r) (baseline r) (npiplus r) (npiminus r) (npizero r)
        (nproton r) (nneutron r) (ischarm r) (isseaquark r) (resnum r)
        (xsec r) (genweight r) (prod_vtx r) (parent_dcy_mom r)
        (parent_dcy_mode r) (parent_pdg r) (parent_dcy_E r)
        (imp_weight r) (generator r) (genVersion r) (genConfigString r)
        (nprim r) (prim r)
  | f_momentum => fun v r =>
      mkSRTrueInteraction
        (isvtxcont r) (pdg r) (pdgorig r) (iscc r) (mode r)
        (targetPDG r) (hitnuc r) (E r) (vtx r) v (position r) (time r)
        (bjorkenX r) (inelasticity r) (Q2 r) (q0 r) (modq r) (W r) (t r)
        (baseline r) (npiplus r) (npiminus r) (npizero r) (nproton r)
        (nneutron r) (ischarm r) (isseaquark r) (resnum r) (xsec r)
        (genweight r) (prod_vtx r) (parent_dcy_mom r)
        (parent_dcy_mode r) (parent_pdg r) (parent_dcy_E r)
        (imp_weight r) (generator r) (genVersion r) (genConfigString r)
        (nprim r) (prim r)
  | f_position => fun v r =>
      mkSRTrueInteraction
        (isvtxcont r) (pdg r) (pdgorig r) (iscc r) (mode r)
        (targetPDG r) (hitnuc r) (E r) (vtx r) (momentum r) v (time r)
        (bjorkenX r) (inelasticity r) (Q2 r) (q0 r) (modq r) (W r) (t r)
        (baseline r) (npiplus r) (npiminus r) (npizero r) (nproton r)
        (nneutron r) (ischarm r) (isseaquark r) (resnum r) (xsec r)
        (genweight r) (prod_vtx r) (parent_dcy_mom r)
        (parent_dcy_mode r) (parent_pdg r) (parent_dcy_E r)
        (imp_weight r) (generator r) (genVersion r) (genConfigString r)
        (nprim r) (prim r)
  | f_time => fun v r =>
      mkSRTrueInteraction
        (isvtxcont r) (pdg r) (pdgorig r) (iscc r) (mode r)
        (targetPDG r) (hitnuc r) (E r) (vtx r) (momentum r) (position r)
        v (bjorkenX r) (inelasticity r) (Q2 r) (q0 r) (modq r) (W r)
        (t r) (baseline r) (npiplus r) (npiminus r) (npizero r)
        (nproton r) (nneutron r) (ischarm r) (isseaquark r) (resnum r)
        (xsec r) (genweight r) (prod_vtx r) (parent_dcy_mom r)
        (parent_dcy_mode r) (parent_pdg r) (parent_dcy_E r)
        (imp_weight r) (generator r) (genVersion r) (genConfigString r)
        (nprim r) (prim r)
  | f_bjorkenX => fun v r =>
      mkSRTrueInteraction
        (isvtxcont r) (pdg r) (pdgorig r) (iscc r) (mode r)
        (targetPDG r) (hitnuc r) (E r) (vtx r) (momentum r) (position r)
        (time r) v (inelasticity r) (Q2 r) (q0 r) (modq r) (W r) (t r)
        (baseline r) (npiplus r) (npiminus r) (npizero r) (nproton r)
        (nneutron r) (ischarm r) (isseaquark r) (resnum r) (xsec r)
        (genweight r) (prod_vtx r) (parent_dcy_mom r)
        (parent_dcy_mode r) (parent_pdg r) (parent_dcy_E r)
        (imp_weight r) (generator r) (genVersion r) (genConfigString r)
        (nprim r) (prim r)
  | f_inelasticity => fun v r =>
      mkSRTrueInteraction
        (isvtxcont r) (pdg r) (pdgorig r) (iscc r) (mode r)
        (targetPDG r) (hitnuc r) (E r) (vtx r) (momentum r) (position r)
        (time r) (bjorkenX r) v (Q2 r) (q0 r) (modq r) (W r) (t r)
        (baseline r) (npiplus r) (npiminus r) (npizero r) (nproton r)
        (nneutron r) (ischarm r) (isseaquark r) (resnum r) (xsec r)
        (genweight r) (prod_vtx r) (parent_dcy_mom r)
        (parent_dcy_mode r) (parent_pdg r) (parent_dcy_E r)
        (imp_weight r) (generator r) (genVersion r) (genConfigString r)
        (nprim r) (prim r)
  | f_Q2 => fun v r =>
      mkSRTrueInteraction
        (isvtxcont r) (pdg r) (pdgorig r) (iscc r) (mode r)
        (targetPDG r) (hitnuc r) (E r) (vtx r) (momentum r) (position r)
        (time r) (bjorkenX r) (inelasticity r) v (q0 r) (modq r) (W r)
        (t r) (baseline r) (npiplus r) (npiminus r) (npizero r)
        (nproton r) (nneutron r) (ischarm r) (isseaquark r) (resnum r)
        (xsec r) (genweight r) (prod_vtx r) (parent_dcy_mom r)
        (parent_dcy_mode r) (parent_pdg r) (parent_dcy_E r)
        (imp_weight r) (generator r) (genVersion r) (genConfigString r)
        (nprim r) (prim r)
  | f_q0 => fun v r =>
      mkSRTrueInteraction
        (isvtxcont r) (pdg r) (pdgorig r) (iscc r) (mode r)
        (targetPDG r) (hitnuc r) (E r) (vtx r) (momentum r) (position r)
        (time r) (bjorkenX r) (inelasticity r) (Q2 r) v (modq r) (W r)
        (t r) (baseline r) (npiplus r) (npiminus r) (npizero r)
        (nproton r) (nneutron r) (ischarm r) (isseaquark r) (resnum r)
        (xsec r) (genweight r) (prod_vtx r) (parent_dcy_mom r)
        (parent_dcy_mode r) (parent_pdg r) (parent_dcy_E r)
        (imp_weight r) (generator r) (genVersion r) (genConfigString r)
        (nprim r) (prim r)
  | f_modq => fun v r =>
      mkSRTrueInteraction
        (isvtxcont r) (pdg r) (pdgorig r) (iscc r) (mode r)
        (targetPDG r) (hitnuc r) (E r) (vtx r) (momentum r) (position r)
        (time r) (bjorkenX r) (inelasticity r) (Q2 r) (q0 r) v (W r)
        (t r) (baseline r) (npiplus r) (npiminus r) (npizero r)
        (nproton r) (nneutron r) (ischarm r) (isseaquark r) (resnum r)
        (xsec r) (genweight r) (prod_vtx r) (parent_dcy_mom r)
        (parent_dcy_mode r) (parent_pdg r) (parent_dcy_E r)
        (imp_weight r) (generator r) (genVersion r) (genConfigString r)
        (nprim r) (prim r)
  | f_W => fun v r =>
      mkSRTrueInteraction
        (isvtxcont r) (pdg r) (pdgorig r) (iscc r) (mode r)
        (targetPDG r) (hitnuc r) (E r) (vtx r) (momentum r) (position r)
        (time r) (bjorkenX r) (inelasticity r) (Q2 r) (q0 r) (modq r) v
        (t r) (baseline r) (npiplus r) (npiminus r) (npizero r)
        (nproton r) (nneutron r) (ischarm r) (isseaquark r) (resnum r)
        (xsec r) (genweight r) (prod_vtx r) (parent_dcy_mom r)
        (parent_dcy_mode r) (parent_pdg r) (parent_dcy_E r)
        (imp_weight r) (generator r) (genVersion r) (genConfigString r)
        (nprim r) (prim r)
  | f_t => fun v r =>
      mkSRTrueInteraction
        (isvtxcont r) (pdg r) (pdgorig r) (iscc r) (mode r)
        (targetPDG r) (hitnuc r) (E r) (vtx r) (momentum r) (position r)
        (time r) (bjorkenX r) (inelasticity r) (Q2 r) (q0 r) (modq r)
        (W r) v (baseline r) (npiplus r) (npiminus r) (npizero r)
        (nproton r) (nneutron r) (ischarm r) (isseaquark r) (resnum r)
        (xsec r) (genweight r) (prod_vtx r) (parent_dcy_mom r)
        (parent_dcy_mode r) (parent_pdg r) (parent_dcy_E r)
        (imp_weight r) (generator r) (genVersion r) (genConfigString r)
        (nprim r) (prim r)
  | f_baseline => fun v r =>
      mkSRTrueInteraction
        (isvtxcont r) (pdg r) (pdgorig r) (iscc r) (mode r)
        (targetPDG r) (hitnuc r) (E r) (vtx r) (momentum r) (position r)
        (time r) (bjorkenX r) (inelasticity r) (Q2 r) (q0 r) (modq r)
        (W r) (t r) v (npiplus r) (npiminus r) (npizero r) (nproton r)
        (nneutron r) (ischarm r) (isseaquark r) (resnum r) (xsec r)
        (genweight r) (prod_vtx r) (parent_dcy_mom r)
        (parent_dcy_mode r) (parent_pdg r) (parent_dcy_E r)
        (imp_weight r) (generator r) (genVersion r) (genConfigString r)
        (nprim r) (prim r)
  | f_npiplus => fun v r =>
      mkSRTrueInteraction
        (isvtxcont r) (pdg r) (pdgorig r) (iscc r) (mode r)
        (targetPDG r) (hitnuc r) (E r) (vtx r) (momentum r) (position r)
        (time r) (bjorkenX r) (inelasticity r) (Q2 r) (q0 r) (modq r)
        (W r) (t r) (baseline r) v (npiminus r) (npizero r) (nproton r)
        (nneutron r) (ischarm r) (isseaquark r) (resnum r) (xsec r)
        (genweight r) (prod_vtx r) (parent_dcy_mom r)
        (parent_dcy_mode r) (parent_pdg r) (parent_dcy_E r)
        (imp_weight r) (generator r) (genVersion r) (genConfigString r)
        (nprim r) (prim r)
  | f_npiminus => fun v r =>
      mkSRTrueInteraction
        (isvtxcont r) (pdg r) (pdgorig r) (iscc r) (mode r)
        (targetPDG r) (hitnuc r) (E r) (vtx r) (momentum r) (position r)
        (time r) (bjorkenX r) (inelasticity r) (Q2 r) (q0 r) (modq r)
        (W r) (t r) (baseline r) (npiplus r) v (npizero r) (nproton r)
        (nneutron r) (ischarm r) (isseaquark r) (resnum r) (xsec r)
        (genweight r) (prod_vtx r) (parent_dcy_mom r)
        (parent_dcy_mode r) (parent_pdg r) (parent_dcy_E r)
        (imp_weight r) (generator r) (genVersion r) (genConfigString r)
        (nprim r) (prim r)
  | f_npizero => fun v r =>
      mkSRTrueInteraction
        (isvtxcont r) (pdg r) (pdgorig r) (iscc r) (mode r)
        (targetPDG r) (hitnuc r) (E r) (vtx r) (momentum r) (position r)
        (time r) (bjorkenX r) (inelasticity r) (Q2 r) (q0 r) (modq r)
        (W r) (t r) (baseline r) (npiplus r) (npiminus r) v (nproton r)
        (nneutron r) (ischarm r) (isseaquark r) (resnum r) (xsec r)
        (genweight r) (prod_vtx r) (parent_dcy_mom r)
        (parent_dcy_mode r) (parent_pdg r) (parent_dcy_E r)
        (imp_weight r) (generator r) (genVersion r) (genConfigString r)
        (nprim r) (prim r)
  | f_nproton => fun v r =>
      mkSRTrueInteraction
        (isvtxcont r) (pdg r) (pdgorig r) (iscc r) (mode r)
        (targetPDG r) (hitnuc r) (E r) (vtx r) (momentum r) (position r)
        (time r) (bjorkenX r) (inelasticity r) (Q2 r) (q0 r) (modq r)
        (W r) (t r) (baseline r) (npiplus r) (npiminus r) (npizero r) v
        (nneutron r) (ischarm r) (isseaquark r) (resnum r) (xsec r)
        (genweight r) (prod_vtx r) (parent_dcy_mom r)
        (parent_dcy_mode r) (parent_pdg r) (parent_dcy_E r)
        (imp_weight r) (generator r) (genVersion r) (genConfigString r)
        (nprim r) (prim r)
  | f_nneutron => fun v r =>
      mkSRTrueInteraction
        (isvtxcont r) (pdg r) (pdgorig r) (iscc r) (mode r)
        (targetPDG r) (hitnuc r) (E r) (vtx r) (momentum r) (position r)
        (time r) (bjorkenX r) (inelasticity r) (Q2 r) (q0 r) (modq r)
        (W r) (t r) (baseline r) (npiplus r) (npiminus r) (npizero r)
        (nproton r) v (ischarm r) (isseaquark r) (resnum r) (xsec r)
        (genweight r) (prod_vtx r) (parent_dcy_mom r)
        (parent_dcy_mode r) (parent_pdg r) (parent_dcy_E r)
        (imp_weight r) (generator r) (genVersion r) (genConfigString r)
        (nprim r) (prim r)
  | f_ischarm => fun v r =>
      mkSRTrueInteraction
        (isvtxcont r) (pdg r) (pdgorig r) (iscc r) (mode r)
        (targetPDG r) (hitnuc r) (E r) (vtx r) (momentum r) (position r)
        (time r) (bjorkenX r) (inelasticity r) (Q2 r) (q0 r) (modq r)
        (W r) (t r) (baseline r) (npiplus r) (npiminus r) (npizero r)
        (nproton r) (nneutron r) v (isseaquark r) (resnum r) (xsec r)
        (genweight r) (prod_vtx r) (parent_dcy_mom r)
        (parent_dcy_mode r) (parent_pdg r) (parent_dcy_E r)
        (imp_weight r) (generator r) (genVersion r) (genConfigString r)
        (nprim r) (prim r)
  | f_isseaquark => fun v r =>
      mkSRTrueInteraction
        (isvtxcont r) (pdg r) (pdgorig r) (iscc r) (mode r)
        (targetPDG r) (hitnuc r) (E r) (vtx r) (momentum r) (position r)
        (time r) (bjorkenX r) (inelasticity r) (Q2 r) (q0 r) (modq r)
        (W r) (t r) (baseline r) (npiplus r) (npiminus r) (npizero r)
        (nproton r) (nneutron r) (ischarm r) v (resnum r) (xsec r)
        (genweight r) (prod_vtx r) (parent_dcy_mom r)
        (parent_dcy_mode r) (parent_pdg r) (parent_dcy_E r)
        (imp_weight r) (generator r) (genVersion r) (genConfigString r)
        (nprim r) (prim r)
  | f_resnum => fun v r =>
      mkSRTrueInteraction
        (isvtxcont r) (pdg r) (pdgorig r) (iscc r) (mode r)
        (targetPDG r) (hitnuc r) (E r) (vtx r) (momentum r) (position r)
        (time r) (bjorkenX r) (inelasticity r) (Q2 r) (q0 r) (modq r)
        (W r) (t r) (baseline r) (npiplus r) (npiminus r) (npizero r)
        (nproton r) (nneutron r) (ischarm r) (isseaquark r) v (xsec r)
        (genweight r) (prod_vtx r) (parent_dcy_mom r)
        (parent_dcy_mode r) (parent_pdg r) (parent_dcy_E r)
        (imp_weight r) (generator r) (genVersion r) (genConfigString r)
        (nprim r) (prim r)
  | f_xsec => fun v r =>
      mkSRTrueInteraction
        (isvtxcont r) (pdg r) (pdgorig r) (iscc r) (mode r)
        (targetPDG r) (hitnuc r) (E r) (vtx r) (momentum r) (position r)
        (time r) (bjorkenX r) (inelasticity r) (Q2 r) (q0 r) (modq r)
        (W r) (t r) (baseline r) (npiplus r) (npiminus r) (npizero r)
        (nproton r) (nneutron r) (ischarm r) (isseaquark r) (resnum r) v
        (genweight r) (prod_vtx r) (parent_dcy_mom r)
        (parent_dcy_mode r) (parent_pdg r) (parent_dcy_E r)
        (imp_weight r) (generator r) (genVersion r) (genConfigString r)
        (nprim r) (prim r)
  | f_genweight => fun v r =>
      mkSRTrueInteraction
        (isvtxcont r) (pdg r) (pdgorig r) (iscc r) (mode r)
        (targetPDG r) (hitnuc r) (E r) (vtx r) (momentum r) (position r)
        (time r) (bjorkenX r) (inelasticity r) (Q2 r) (q0 r) (modq r)
        (W r) (t r) (baseline r) (npiplus r) (npiminus r) (npizero r)
        (nproton r) (nneutron r) (ischarm r) (isseaquark r) (resnum r)
        (xsec r) v (prod_vtx r) (parent_dcy_mom r) (parent_dcy_mode r)
        (parent_pdg r) (parent_dcy_E r) (imp_weight r) (generator r)
        (genVersion r) (genConfigString r) (nprim r) (prim r)
  | f_prod_vtx => fun v r =>
      mkSRTrueInteraction
        (isvtxcont r) (pdg r) (pdgorig r) (iscc r) (mode r)
        (targetPDG r) (hitnuc r) (E r) (vtx r) (momentum r) (position r)
        (time r) (bjorkenX r) (inelasticity r) (Q2 r) (q0 r) (modq r)
        (W r) (t r) (baseline r) (npiplus r) (npiminus r) (npizero r)
        (nproton r) (nneutron r) (ischarm r) (isseaquark r) (resnum r)
        (xsec r) (genweight r) v (parent_dcy_mom r) (parent_dcy_mode r)
        (parent_pdg r) (parent_dcy_E r) (imp_weight r) (generator r)
        (genVersion r) (genConfigString r) (nprim r) (prim r)
  | f_parent_dcy_mom => fun v r =>
      mkSRTrueInteraction
        (isvtxcont r) (pdg r) (pdgorig r) (iscc r) (mode r)
        (targetPDG r) (hitnuc r) (E r) (vtx r) (momentum r) (position r)
        (time r) (bjorkenX r) (inelasticity r) (Q2 r) (q0 r) (modq r)
        (W r) (t r) (baseline r) (npiplus r) (npiminus r) (npizero r)
        (nproton r) (nneutron r) (ischarm r) (isseaquark r) (resnum r)
        (xsec r) (genweight r) (prod_vtx r) v (parent_dcy_mode r)
        (parent_pdg r) (parent_dcy_E r) (imp_weight r) (generator r)
        (genVersion r) (genConfigString r) (nprim r) (prim r)
  | f_parent_dcy_mode => fun v r =>
      mkSRTrueInteraction
        (isvtxcont r) (pdg r) (pdgorig r) (iscc r) (mode r)
        (targetPDG r) (hitnuc r) (E r) (vtx r) (momentum r) (position r)
        (time r) (bjorkenX r) (inelasticity r) (Q2 r) (q0 r) (modq r)
        (W r) (t r) (baseline r) (npiplus r) (npiminus r) (npizero r)
        (nproton r) (nneutron r) (ischarm r) (isseaquark r) (resnum r)
        (xsec r) (genweight r) (prod_vtx r) (parent_dcy_mom r) v
        (parent_pdg r) (parent_dcy_E r) (imp_weight r) (generator r)
        (genVersion r) (genConfigString r) (nprim r) (prim r)
  | f_parent_pdg => fun v r =>
      mkSRTrueInteraction
        (isvtxcont r) (pdg r) (pdgorig r) (iscc r) (mode r)
        (targetPDG r) (hitnuc r) (E r) (vtx r) (momentum r) (position r)
        (time r) (bjorkenX r) (inelasticity r) (Q2 r) (q0 r) (modq r)
        (W r) (t r) (baseline r) (npiplus r) (npiminus r) (npizero r)
        (nproton r) (nneutron r) (ischarm r) (isseaquark r) (resnum r)
        (xsec r) (genweight r) (prod_vtx r) (parent_dcy_mom r)
        (parent_dcy_mode r) v (parent_dcy_E r) (imp_weight r)
        (generator r) (genVersion r) (genConfigString r) (nprim r)
        (prim r)
  | f_parent_dcy_E => fun v r =>
      mkSRTrueInteraction
        (isvtxcont r) (pdg r) (pdgorig r) (iscc r) (mode r)
        (targetPDG r) (hitnuc r) (E r) (vtx r) (momentum r) (position r)
        (time r) (bjorkenX r) (inelasticity r) (Q2 r) (q0 r) (modq r)
        (W r) (t r) (baseline r) (npiplus r) (npiminus r) (npizero r)
        (nproton r) (nneutron r) (ischarm r) (isseaquark r) (resnum r)
        (xsec r) (genweight r) (prod_vtx r) (parent_dcy_mom r)
        (parent_dcy_mode r) (parent_pdg r) v (imp_weight r)
        (generator r) (genVersion r) (genConfigString r) (nprim r)
        (prim r)
  | f_imp_weight => fun v r =>
      mkSRTrueInteraction
        (isvtxcont r) (pdg r) (pdgorig r) (iscc r) (mode r)
        (targetPDG r) (hitnuc r) (E r) (vtx r) (momentum r) (position r)
        (time r) (bjorkenX r) (inelasticity r) (Q2 r) (q0 r) (modq r)
        (W r) (t r) (baseline r) (npiplus r) (npiminus r) (npizero r)
        (nproton r) (nneutron r) (ischarm r) (isseaquark r) (resnum r)
        (xsec r) (genweight r) (prod_vtx r) (parent_dcy_mom r)
        (parent_dcy_mode r) (parent_pdg r) (parent_dcy_E r) v
        (generator r) (genVersion r) (genConfigString r) (nprim r)
        (prim r)
  | f_generator => fun v r =>
      mkSRTrueInteraction
        (isvtxcont r) (pdg r) (pdgorig r) (iscc r) (mode r)
        (targetPDG r) (hitnuc r) (E r) (vtx r) (momentum r) (position r)
        (time r) (bjorkenX r) (inelasticity r) (Q2 r) (q0 r) (modq r)
        (W r) (t r) (baseline r) (npiplus r) (npiminus r) (npizero r)
        (nproton r) (nneutron r) (ischarm r) (isseaquark r) (resnum r)
        (xsec r) (genweight r) (prod_vtx r) (parent_dcy_mom r)
        (parent_dcy_mode r) (parent_pdg r) (parent_dcy_E r)
        (imp_weight r) v (genVersion r) (genConfigString r) (nprim r)
        (prim r)
  | f_genVersion => fun v r =>
      mkSRTrueInteraction
        (isvtxcont r) (pdg r) (pdgorig r) (iscc r) (mode r)
        (targetPDG r) (hitnuc r) (E r) (vtx r) (momentum r) (position r)
        (time r) (bjorkenX r) (inelasticity r) (Q2 r) (q0 r) (modq r)
        (W r) (t r) (baseline r) (npiplus r) (npiminus r) (npizero r)
        (nproton r) (nneutron r) (ischarm r) (isseaquark r) (resnum r)
        (xsec r) (genweight r) (prod_vtx r) (parent_dcy_mom r)
        (parent_dcy_mode r) (parent_pdg r) (parent_dcy_E r)
        (imp_weight r) (generator r) v (genConfigString r) (nprim r)
        (prim r)
  | f_genConfigString => fun v r =>
      mkSRTrueInteraction
        (isvtxcont r) (pdg r) (pdgorig r) (iscc r) (mode r)
        (targetPDG r) (hitnuc r) (E r) (vtx r) (momentum r) (position r)
        (time r) (bjorkenX r) (inelasticity r) (Q2 r) (q0 r) (modq r)
        (W r) (t r) (baseline r) (npiplus r) (npiminus r) (npizero r)
        (nproton r) (nneutron r) (ischarm r) (isseaquark r) (resnum r)
        (xsec r) (genweight r) (prod_vtx r) (parent_dcy_mom r)
        (parent_dcy_mode r) (parent_pdg r) (parent_dcy_E r)
        (imp_weight r) (generator r) (genVersion r) v (nprim r) (prim r)
  | f_nprim => fun v r =>
      mkSRTrueInteraction
        (isvtxcont r) (pdg r) (pdgorig r) (iscc r) (mode r)
        (targetPDG r) (hitnuc r) (E r) (vtx r) (momentum r) (position r)
        (time r) (bjorkenX r) (inelasticity r) (Q2 r) (q0 r) (modq r)
        (W r) (t r) (baseline r) (npiplus r) (npiminus r) (npizero r)
        (nproton r) (nneutron r) (ischarm r) (isseaquark r) (resnum r)
        (xsec r) (genweight r) (prod_vtx r) (parent_dcy_mom r)
        (parent_dcy_mode r) (parent_pdg r) (parent_dcy_E r)
        (imp_weight r) (generator r) (genVersion r) (genConfigString r)
        v (prim r)
  | f_prim => fun v r =>
      mkSRTrueInteraction
        (isvtxcont r) (pdg r) (pdgorig r) (iscc r) (mode r)
        (targetPDG r) (hitnuc r) (E r) (vtx r) (momentum r) (position r)
        (time r) (bjorkenX r) (inelasticity r) (Q2 r) (q0 r) (modq r)
        (W r) (t r) (baseline r) (npiplus r) (npiminus r) (npizero r)
        (nproton r) (nneutron r) (ischarm r) (isseaquark r) (resnum r)
        (xsec r) (genweight r) (prod_vtx r) (parent_dcy_mom r)
        (parent_dcy_mode r) (parent_pdg r) (parent_dcy_E r)
        (imp_weight r) (generator r) (genVersion r) (genConfigString r)
        (nprim r) v
  end.

(** The value of a member when its type is [float], [int] or
    [unsigned int], or [bool]. *)
Definition as_float (f : field) : field_type f -> option float :=
  match field_kind f as k return kind_type k -> option float with
  | KFloat => fun x => Some x
  | _ => fun _ => None
  end.

Definition as_Z (f : field) : field_type f -> option Z :=
  match field_kind f as k return kind_type k -> option Z with
  | KInt => fun i => Some (int_val i)
  | KUInt => fun u => Some (uint_val u)
  | _ => fun _ => None
  end.

Definition as_bool (f : field) : field_type f -> option bool :=
  match field_kind f as k return kind_type k -> option bool with
  | KBool => fun b => Some b
  | _ => fun _ => None
  end.

Definition read_float (f : field) (r : SRTrueInteraction) : option float :=
  as_float f (get f r).

Definition read_Z (f : field) (r : SRTrueInteraction) : option Z :=
  as_Z f (get f r).

Definition read_bool (f : field) (r : SRTrueInteraction) : option bool :=
  as_bool f (get f r).

(** One assignment statement [r.f = v;]. *)
Inductive assignment : Type :=
  | Assign (f : field) (v : field_type f).

Definition target (a : assignment) : field :=
  match a with Assign f _ => f end.

Definition exec (a : assignment) (r : SRTrueInteraction) : SRTrueInteraction :=
  match a with Assign f v => set f v r end.

(** A sequence of assignment statements, executed from left to right. *)
Definition run (prog : list assignment) (r : SRTrueInteraction) : SRTrueInteraction :=
  fold_left (fun s a => exec a s) prog r.

(** A producer's code: default construction followed by assignments. *)
Definition construct (prog : list assignment) : SRTrueInteraction :=
  run prog SRTrueInteraction_default.

(** The assignments that write every member of [r] in turn. *)
Definition copy_program (r : SRTrueInteraction) : list assignment :=
  map (fun f => Assign f (get f r)) all_fields.

(** The declared count agrees with the daughter sequence. *)
Definition count_matches (r : SRTrueInteraction) : Prop :=
  int_val (nprim r) = Z.of_nat (List.length (prim r)).

(** An assignment to [nprim] or to [prim]. *)
Definition writes_count (a : assignment) : bool :=
  field_beq (target a) f_nprim || field_beq (target a) f_prim.

(** Whether some assignment of [prog] writes the member [g]. *)
Definition writes (g : field) (prog : list assignment) : bool :=
  existsb (fun a => field_beq (target a) g) prog.

(* ================================================================ *)
(** ** Properties *)

(** *** binary32 facts *)

Lemma SFeqb_nan_r (x : SpecFloat.spec_float) :
  SpecFloat.SFeqb x SpecFloat.S754_nan = false.
Proof. destruct x; reflexivity. Qed.

Lemma SFeqb_nan_l (x : SpecFloat.spec_float) :
  SpecFloat.SFeqb SpecFloat.S754_nan x = false.
Proof. destruct x; reflexivity. Qed.

Lemma isnan_decode (x : float) :
  isnan x = true -> float_decode x = SpecFloat.S754_nan.
Proof.
  unfold isnan, float_decode; intros H.
  apply andb_prop in H; destruct H as [He Hm].
  rewrite He.
  destruct (float_fraction x =? 0); [discriminate Hm | reflexivity].
Qed.

Lemma signaling_isnan (x : float) :
  is_signaling_NaN x = true -> isnan x = true.
Proof.
  unfold is_signaling_NaN; intros H.
  apply andb_prop in H; tauto.
Qed.

Lemma float_eq_nan_r (x y : float) :
  isnan x = true -> float_eq y x = false.
Proof.
  intros H; unfold float_eq.
  rewrite (isnan_decode x H); apply SFeqb_nan_r.
Qed.

Lemma float_eq_nan_l (x y : float) :
  isnan x = true -> float_eq x y = false.
Proof.
  intros H; unfold float_eq.
  rewrite (isnan_decode x H); apply SFeqb_nan_l.
Qed.

Example float_eq_one : float_eq float_one float_one = true.
Proof. reflexivity. Qed.

Example float_eq_one_sNaN : float_eq float_one sNaN_7FA00000 = false.
Proof. reflexivity. Qed.

Example isnan_one : isnan float_one = false.
Proof. reflexivity. Qed.

Example sNaN_7FA00000_signaling : is_signaling_NaN sNaN_7FA00000 = true.
Proof. reflexivity. Qed.

Example qNaN_7FC00000_quiet :
  isnan qNaN_7FC00000 = true /\ is_signaling_NaN qNaN_7FC00000 = false.
Proof. split; reflexivity. Qed.

(** *** Scalars *)

Example uint_of_int_minus_one : uint_val (uint_of_int (i32 (-1))) = 4294967295.
Proof. reflexivity. Qed.

Lemma int_val_bounds (i : int) : - 2 ^ 31 <= int_val i < 2 ^ 31.
Proof.
  destruct i as [z Hz]; simpl.
  unfold in_int in Hz; apply andb_prop in Hz; destruct Hz as [Hlo Hhi].
  apply Z.leb_le in Hlo; apply Z.ltb_lt in Hhi; split; assumption.
Qed.

Lemma uint_val_bounds (u : uint) : 0 <= uint_val u < 2 ^ 32.
Proof.
  destruct u as [z Hz]; simpl.
  unfold in_uint in Hz; apply andb_prop in Hz; destruct Hz as [Hlo Hhi].
  apply Z.leb_le in Hlo; apply Z.ltb_lt in Hhi; split; assumption.
Qed.

(** Converting a negative [int] to [unsigned int] wraps around. *)
Lemma uint_of_int_negative (i : int) :
  int_val i < 0 -> uint_val (uint_of_int i) = int_val i + 2 ^ 32.
Proof.
  intros Hneg; pose proof (int_val_bounds i) as Hb; simpl.
  symmetry; apply Z.mod_unique with (q := -1); lia.
Qed.

(** The three integers that the documentation comment of [hitnuc] lists
    for nucleon pairs (lines 66-68) are values of the member's type. *)
Lemma hitnuc_holds_pair_codes (z : Z) :
  2000000200 <= z <= 2000000202 -> in_int z = true.
Proof.
  intros Hz; unfold in_int.
  apply andb_true_intro; split; [apply Z.leb_le | apply Z.ltb_lt]; lia.
Qed.

(** *** Fields *)

Lemma all_fields_complete (f : field) : In f all_fields.
Proof. destruct f; simpl; tauto. Qed.

Lemma scalar_float_fields_kind (f : field) :
  In f scalar_float_fields <-> field_kind f = KFloat.
Proof.
  split.
  - simpl; intros H.
    repeat (destruct H as [<- | H]; [reflexivity | ]); contradiction.
  - destruct f; simpl; intros H; try discriminate H; tauto.
Qed.

Lemma multiplicity_fields_kind (f : field) :
  In f multiplicity_fields <-> field_kind f = KUInt.
Proof.
  split.
  - simpl; intros H.
    repeat (destruct H as [<- | H]; [reflexivity | ]); contradiction.
  - destruct f; simpl; intros H; try discriminate H; tauto.
Qed.

Lemma boolean_fields_kind (f : field) :
  In f boolean_fields <-> field_kind f = KBool.
Proof.
  split.
  - simpl; intros H.
    repeat (destruct H as [<- | H]; [reflexivity | ]); contradiction.
  - destruct f; simpl; intros H; try discriminate H; tauto.
Qed.

(** The [int] members are the seven code fields and [nprim]. *)
Lemma signed_fields_kind (f : field) :
  In f signed_code_fields \/ f = f_nprim <-> field_kind f = KInt.
Proof.
  split.
  - simpl; intros [H | ->]; [ | reflexivity].
    repeat (destruct H as [<- | H]; [reflexivity | ]); contradiction.
  - destruct f; simpl; intros H; try discriminate H; tauto.
Qed.

Lemma field_beq_eq (f g : field) : field_beq f g = true <-> f = g.
Proof.
  split.
  - apply internal_field_dec_bl.
  - apply internal_field_dec_lb.
Qed.

Lemma field_beq_neq (f g : field) : field_beq f g = false <-> f <> g.
Proof.
  split.
  - intros H E; apply field_beq_eq in E; congruence.
  - intros H; destruct (field_beq f g) eqn:E; [ | reflexivity].
    apply field_beq_eq in E; contradiction.
Qed.

(** *** Reading and assigning *)

Lemma get_set_same (f : field) (v : field_type f) (r : SRTrueInteraction) :
  get f (set f v r) = v.
Proof. destruct f; reflexivity. Qed.

Lemma get_set_other (f g : field) (v : field_type f) (r : SRTrueInteraction) :
  f <> g -> get g (set f v r) = get g r.
Proof.
  intros Hne; destruct f; destruct g; try reflexivity; contradiction Hne; reflexivity.
Qed.

Lemma run_app (p q : list assignment) (r : SRTrueInteraction) :
  run (p ++ q) r = run q (run p r).
Proof. unfold run; apply fold_left_app. Qed.

Lemma run_cons (a : assignment) (p : list assignment) (r : SRTrueInteraction) :
  run (a :: p) r = run p (exec a r).
Proof. reflexivity. Qed.

(** Every value of the record type is the result of default construction
    followed by assignments: all members are public. *)
Lemma construct_copy_program (r : SRTrueInteraction) :
  construct (copy_program r) = r.
Proof. destruct r; reflexivity. Qed.

(** Assignments that leave [nprim] and [prim] alone keep [count_matches]. *)
Lemma exec_keeps_count (a : assignment) (r : SRTrueInteraction) :
  writes_count a = false -> count_matches r -> count_matches (exec a r).
Proof.
  destruct a as [f v]; unfold writes_count, count_matches; simpl.
  intros Hw Hc.
  apply orb_false_elim in Hw; destruct Hw as [Hn Hp].
  apply field_beq_neq in Hn; apply field_beq_neq in Hp.
  change (nprim (set f v r)) with (get f_nprim (set f v r)).
  change (prim (set f v r)) with (get f_prim (set f v r)).
  rewrite (get_set_other f f_nprim v r Hn), (get_set_other f f_prim v r Hp).
  exact Hc.
Qed.

Lemma run_keeps_count (prog : list assignment) (r : SRTrueInteraction) :
  existsb writes_count prog = false ->
  count_matches r -> count_matches (run prog r).
Proof.
  revert r; induction prog as [ | a prog IH]; intros r Hw Hc.
  - exact Hc.
  - simpl in Hw; apply orb_false_elim in Hw; destruct Hw as [Ha Hrest].
    rewrite run_cons; apply IH; [exact Hrest | ].
    apply exec_keeps_count; assumption.
Qed.

Lemma ScatteringMode_99_unnamed (tag : ScatteringModeTag) :
  ScatteringMode_cast (i32 99) <> ScatteringMode_enum tag.
Proof.
  intros H; apply (f_equal ScatteringMode_int) in H.
  destruct tag; discriminate H.
Qed.

Lemma Generator_99_unnamed (tag : GeneratorTag) :
  Generator_cast (i32 99) <> Generator_enum tag.
Proof.
  intros H; apply (f_equal Generator_int) in H.
  destruct tag; discriminate H.
Qed.

(* ================================================================ *)
(** ** The record's contract *)

(** C1: after default construction each of the fourteen scalar [float]
    members (E, time, bjorkenX, inelasticity, Q2, q0, modq, W, t,
    baseline, xsec, genweight, parent_dcy_E, imp_weight) holds exactly
    the sentinel [NaN], whose bit pattern is a signaling NaN. *)
Theorem default_floats_are_sentinel (f : field) :
  In f scalar_float_fields ->
  exists x : float,
    read_float f SRTrueInteraction_default = Some x
    /\ float_bits x = float_bits NaN
    /\ is_signaling_NaN x = true.
Proof.
  intros H; exists NaN.
  simpl in H.
  repeat (destruct H as [<- | H]; [repeat split; assumption | ]).
  contradiction.
Qed.

(** C2 (amended): after default construction every plain integer member
    other than [parent_dcy_mode] (pdg, pdgorig, targetPDG, hitnuc,
    resnum, parent_pdg and the five unsigned multiplicities) is zero,
    [parent_dcy_mode] is -1, and the generator version sequence and the
    configuration string are empty. *)
Theorem default_integers (f : field) :
  In f plain_integer_fields ->
  read_Z f SRTrueInteraction_default
    = Some (if field_beq f f_parent_dcy_mode then -1 else 0)
  /\ genVersion SRTrueInteraction_default = []
  /\ genConfigString SRTrueInteraction_default = EmptyString.
Proof.
  intros H; simpl in H.
  repeat (destruct H as [<- | H]; [repeat split; reflexivity | ]).
  contradiction.
Qed.

(** C3: every enumerator has the integer value of the documented
    table: Generator 0..3 in declaration order, and ScatteringMode -1
    for the unknown mode, then 0..13 in declaration order. *)
Theorem enumerator_values :
  Generator_int (Generator_enum kUnknownGenerator) = 0
  /\ Generator_int (Generator_enum kGENIE) = 1
  /\ Generator_int (Generator_enum kGIBUU) = 2
  /\ Generator_int (Generator_enum kNEUT) = 3
  /\ ScatteringMode_int (ScatteringMode_enum kUnknownMode) = -1
  /\ ScatteringMode_int (ScatteringMode_enum kQE) = 0
  /\ ScatteringMode_int (ScatteringMode_enum kRes) = 1
  /\ ScatteringMode_int (ScatteringMode_enum kDIS) = 2
  /\ ScatteringMode_int (ScatteringMode_enum kCoh) = 3
  /\ ScatteringMode_int (ScatteringMode_enum kCohElastic) = 4
  /\ ScatteringMode_int (ScatteringMode_enum kElectronScattering) = 5
  /\ ScatteringMode_int (ScatteringMode_enum kIMDAnnihilation) = 6
  /\ ScatteringMode_int (ScatteringMode_enum kInverseBetaDecay) = 7
  /\ ScatteringMode_int (ScatteringMode_enum kGlashowResonance) = 8
  /\ ScatteringMode_int (ScatteringMode_enum kAMNuGamma) = 9
  /\ ScatteringMode_int (ScatteringMode_enum kMEC) = 10
  /\ ScatteringMode_int (ScatteringMode_enum kDiffractive) = 11
  /\ ScatteringMode_int (ScatteringMode_enum kEM) = 12
  /\ ScatteringMode_int (ScatteringMode_enum kWeakMix) = 13.
Proof. repeat split. Qed.

(** C4: after default construction the four [bool] members are false,
    [generator] is [kUnknownGenerator], [mode] is [kUnknownMode], the
    daughter sequence [prim] is empty and the count [nprim] is zero. *)
Theorem default_flags_enums_daughters :
  isvtxcont SRTrueInteraction_default = false
  /\ iscc SRTrueInteraction_default = false
  /\ ischarm SRTrueInteraction_default = false
  /\ isseaquark SRTrueInteraction_default = false
  /\ generator SRTrueInteraction_default = Generator_enum kUnknownGenerator
  /\ mode SRTrueInteraction_default = ScatteringMode_enum kUnknownMode
  /\ prim SRTrueInteraction_default = []
  /\ int_val (nprim SRTrueInteraction_default) = 0.
Proof. repeat split; reflexivity. Qed.

(** C6: no operation of the record fails.  Default construction, the
    empty sequence of assignments, yields the sentinel-default state:
    every scalar [float] member the sentinel, every [bool] member false,
    every plain integer member zero except [parent_dcy_mode] which is -1,
    both enumeration members their unknown enumerator, the five vectors
    default-constructed, and the version sequence, the configuration
    string and the daughter sequence empty with a count of zero.  An
    assignment always stores the value given; every value of the type is
    constructible; in particular a count of 2 with one daughter, and
    enumeration members holding the unnamed integer 99, are ordinary
    states. *)
Theorem no_operation_fails (p : SRTrueParticle) :
  (forall f, In f scalar_float_fields ->
             read_float f (construct []) = Some NaN)
  /\ (forall f, In f boolean_fields ->
                read_bool f (construct []) = Some false)
  /\ (forall f, In f plain_integer_fields ->
                read_Z f (construct [])
                = Some (if field_beq f f_parent_dcy_mode then -1 else 0))
  /\ mode (construct []) = ScatteringMode_enum kUnknownMode
  /\ generator (construct []) = Generator_enum kUnknownGenerator
  /\ vtx (construct []) = SRVector3D_default
  /\ momentum (construct []) = SRVector3D_default
  /\ position (construct []) = SRVector3D_default
  /\ prod_vtx (construct []) = SRVector3D_default
  /\ parent_dcy_mom (construct []) = SRVector3D_default
  /\ genVersion (construct []) = []
  /\ genConfigString (construct []) = EmptyString
  /\ int_val (nprim (construct [])) = 0
  /\ prim (construct []) = []
  /\ (forall f v r, get f (set f v r) = v)
  /\ (forall r, exists prog, construct prog = r)
  /\ (exists prog,
        int_val (nprim (construct prog)) = 2
        /\ List.length (prim (construct prog)) = 1%nat)
  /\ (exists prog,
        ScatteringMode_int (mode (construct prog)) = 99
        /\ forall tag, mode (construct prog) <> ScatteringMode_enum tag)
  /\ (exists prog,
        Generator_int (generator (construct prog)) = 99
        /\ forall tag, generator (construct prog) <> Generator_enum tag).
Proof.
  split.
  { intros f H; simpl in H.
    repeat (destruct H as [<- | H]; [reflexivity | ]); contradiction. }
  split.
  { intros f H; simpl in H.
    repeat (destruct H as [<- | H]; [reflexivity | ]); contradiction. }
  split.
  { intros f H; simpl in H.
    repeat (destruct H as [<- | H]; [reflexivity | ]); contradiction. }
  do 11 (split; [reflexivity | ]).
  split; [exact get_set_same | ].
  split; [intros r; exists (copy_program r); apply construct_copy_program | ].
  split.
  { exists [Assign f_nprim (i32 2); Assign f_prim [p]]; split; reflexivity. }
  split.
  { exists [Assign f_mode (ScatteringMode_cast (i32 99))].
    split; [reflexivity | exact ScatteringMode_99_unnamed]. }
  exists [Assign f_generator (Generator_cast (i32 99))].
  split; [reflexivity | exact Generator_99_unnamed].
Qed.

(** C7 (amended): the count [nprim] equals the length of [prim] after
    default construction, and from any record in which the equality holds
    it is kept by every sequence of assignments that writes neither
    [nprim] nor [prim].  The record does not maintain it under
    assignments to those two members: assigning -1 to [nprim], or one
    more daughter to [prim] with the count unchanged, gives a record in
    which they differ. *)
Theorem count_matches_kept :
  count_matches SRTrueInteraction_default
  /\ (forall (r : SRTrueInteraction) (prog : list assignment),
        existsb writes_count prog = false ->
        count_matches r -> count_matches (run prog r))
  /\ (forall r : SRTrueInteraction,
        ~ count_matches (set f_nprim (i32 (-1)) r))
  /\ (forall (r : SRTrueInteraction) (p : SRTrueParticle),
        count_matches r -> ~ count_matches (set f_prim (p :: prim r) r)).
Proof.
  split; [reflexivity | ].
  split; [intros r prog Hw Hc; apply run_keeps_count; assumption | ].
  split.
  - intros r; unfold count_matches; simpl.
    pose proof (Nat2Z.is_nonneg (List.length (prim r))); lia.
  - intros r p; unfold count_matches; simpl List.length.
    change (nprim (set f_prim (p :: prim r) r)) with (nprim r).
    change (prim (set f_prim (p :: prim r) r)) with (p :: prim r).
    simpl List.length; lia.
Qed.

(** C8: an assignment to one member leaves every other member of the
    record with its previous value. *)
Theorem assignment_frame (a : assignment) (g : field) (r : SRTrueInteraction) :
  target a <> g -> get g (exec a r) = get g r.
Proof.
  destruct a as [f v]; simpl; apply get_set_other.
Qed.

(** C9: in every record the five multiplicities (npiplus, npiminus,
    npizero, nproton, nneutron) are unsigned, hence non-negative, while
    [nprim] is a signed [int]: a negative count can be assigned and is
    read back unchanged. *)
Theorem multiplicities_unsigned_count_signed (r : SRTrueInteraction) :
  0 <= uint_val (npiplus r)
  /\ 0 <= uint_val (npiminus r)
  /\ 0 <= uint_val (npizero r)
  /\ 0 <= uint_val (nproton r)
  /\ 0 <= uint_val (nneutron r)
  /\ - 2 ^ 31 <= int_val (nprim r) < 2 ^ 31
  /\ exists v : int,
       int_val v < 0 /\ int_val (nprim (set f_nprim v r)) = int_val v.
Proof.
  repeat (split; [apply uint_val_bounds | ]).
  split; [apply int_val_bounds | ].
  exists (i32 (-1)); split; reflexivity.
Qed.

(** C10: in a default-constructed record, comparing any scalar [float]
    member with the sentinel by [==] gives false, in either order and
    even against itself, because the sentinel is a NaN; [isnan] is true
    of it, and no [float] at all compares equal to the sentinel. *)
Theorem sentinel_never_compares_equal (f : field) :
  In f scalar_float_fields ->
  exists x : float,
    read_float f SRTrueInteraction_default = Some x
    /\ float_eq x NaN = false
    /\ float_eq NaN x = false
    /\ float_eq x x = false
    /\ isnan x = true
    /\ forall y : float, float_eq y NaN = false.
Proof.
  intros H; exists NaN.
  pose proof (signaling_isnan NaN NaN_signaling) as Hnan.
  assert (Hall : forall y, float_eq y NaN = false)
    by (intros y; apply float_eq_nan_r; exact Hnan).
  simpl in H.
  repeat (destruct H as [<- | H];
          [split; [reflexivity | repeat split; auto] | ]).
  contradiction.
Qed.

(* ================================================================== *)
(** ** Further properties of the enumerations, of assignment and of the
    sentinel *)

(** *** Helpers *)


(** Writing every member of [r] in turn gives [r], whatever the record
    the assignments start from. *)
Lemma run_copy_program (r r0 : SRTrueInteraction) :
  run (copy_program r) r0 = r.
Proof. destruct r; reflexivity. Qed.


Lemma get_run_unwritten (g : field) (prog : list assignment)
    (r : SRTrueInteraction) :
  writes g prog = false -> get g (run prog r) = get g r.
Proof.
  revert r; induction prog as [ | a prog IH]; intros r Hw.
  - reflexivity.
  - simpl in Hw; apply orb_false_elim in Hw; destruct Hw as [Ha Hrest].
    rewrite run_cons, (IH _ Hrest).
    destruct a as [f v]; simpl in *.
    apply get_set_other, field_beq_neq; exact Ha.
Qed.

Lemma SFcompare_refl (x : SpecFloat.spec_float) :
  x <> SpecFloat.S754_nan -> SpecFloat.SFcompare x x = Some Eq.
Proof.
  destruct x as [s | s | | s m e]; intros Hx; simpl.
  - reflexivity.
  - destruct s; reflexivity.
  - contradiction Hx; reflexivity.
  - rewrite Z.compare_refl, Pos.compare_cont_refl.
    destruct s; reflexivity.
Qed.

Lemma float_decode_nan (x : float) :
  float_decode x = SpecFloat.S754_nan <-> isnan x = true.
Proof.
  split; [ | apply isnan_decode].
  unfold isnan, float_decode.
  destruct (float_exponent x =? 255).
  - destruct (float_fraction x =? 0); [discriminate | reflexivity].
  - destruct (float_exponent x =? 0).
    + destruct (float_fraction x); discriminate.
    + discriminate.
Qed.

Ltac name_the_tag :=
  first
    [ exists kUnknownGenerator; reflexivity | exists kGENIE; reflexivity
    | exists kGIBUU; reflexivity | exists kNEUT; reflexivity
    | exists kUnknownMode; reflexivity | exists kQE; reflexivity
    | exists kRes; reflexivity | exists kDIS; reflexivity
    | exists kCoh; reflexivity | exists kCohElastic; reflexivity
    | exists kElectronScattering; reflexivity
    | exists kIMDAnnihilation; reflexivity
    | exists kInverseBetaDecay; reflexivity
    | exists kGlashowResonance; reflexivity | exists kAMNuGamma; reflexivity
    | exists kMEC; reflexivity | exists kDiffractive; reflexivity
    | exists kEM; reflexivity | exists kWeakMix; reflexivity ].

(** *** The enumerations *)

(** X1: the integers of the [Generator] enumerators are exactly 0..3, and
    no two enumerators share an integer. *)
Theorem Generator_values_exact :
  (forall z : Z,
     (exists g, Generator_int (Generator_enum g) = z) <-> 0 <= z <= 3)
  /\ (forall g1 g2 : GeneratorTag,
        Generator_int (Generator_enum g1) = Generator_int (Generator_enum g2)
        <-> g1 = g2).
Proof.
  split.
  - intros z; split.
    + intros [g <-]; destruct g; cbn; lia.
    + intros Hz.
      assert (H : z = 0 \/ z = 1 \/ z = 2 \/ z = 3) by lia.
      repeat (destruct H as [-> | H]; [name_the_tag | ]).
      subst z; name_the_tag.
  - intros g1 g2; split.
    + destruct g1; destruct g2; intros H; try reflexivity; discriminate H.
    + intros ->; reflexivity.
Qed.

(** X2: the integers of the [ScatteringMode] enumerators are exactly
    -1..13 without a gap, and no two enumerators share an integer. *)
Theorem ScatteringMode_values_exact :
  (forall z : Z,
     (exists m, ScatteringMode_int (ScatteringMode_enum m) = z)
     <-> -1 <= z <= 13)
  /\ (forall m1 m2 : ScatteringModeTag,
        ScatteringMode_int (ScatteringMode_enum m1)
        = ScatteringMode_int (ScatteringMode_enum m2)
        <-> m1 = m2).
Proof.
  split.
  - intros z; split.
    + intros [m <-]; destruct m; cbn; lia.
    + intros Hz.
      assert (H : z = -1 \/ z = 0 \/ z = 1 \/ z = 2 \/ z = 3 \/ z = 4
                  \/ z = 5 \/ z = 6 \/ z = 7 \/ z = 8 \/ z = 9 \/ z = 10
                  \/ z = 11 \/ z = 12 \/ z = 13) by lia.
      repeat (destruct H as [-> | H]; [name_the_tag | ]).
      subst z; name_the_tag.
  - intros m1 m2; split.
    + destruct m1; destruct m2; intros H; try reflexivity; discriminate H.
    + intros ->; reflexivity.
Qed.

(** *** Assignment *)

(** X3: a record is determined by its members: two records that agree on
    every member are equal. *)
Theorem record_extensionality (r1 r2 : SRTrueInteraction) :
  (forall f : field, get f r1 = get f r2) -> r1 = r2.
Proof.
  intros H.
  rewrite <- (run_copy_program r1 r2) at 1.
  rewrite <- (run_copy_program r2 r2) at 2.
  unfold copy_program; f_equal.
  apply map_ext; intros f; rewrite (H f); reflexivity.
Qed.

(** X4: assigning a member twice leaves the value assigned last, and
    assigning a member the value it already has changes nothing. *)
Theorem assignment_overwrites (f : field) (v w : field_type f)
    (r : SRTrueInteraction) :
  set f v (set f w r) = set f v r /\ set f (get f r) r = r.
Proof.
  split.
  - destruct f; reflexivity.
  - destruct r; destruct f; reflexivity.
Qed.


(** X6: a member that a producer's sequence of assignments never writes
    still holds the value of its default member initialiser. *)
Theorem unwritten_member_keeps_default (g : field) (prog : list assignment) :
  writes g prog = false ->
  get g (construct prog) = get g SRTrueInteraction_default.
Proof.
  intros Hw; unfold construct; apply get_run_unwritten; exact Hw.
Qed.

(** X7: the last assignment to a member decides its value: whatever was
    assigned before, and whatever is assigned to other members after. *)
Theorem last_assignment_wins (g : field) (v : field_type g)
    (p q : list assignment) (r : SRTrueInteraction) :
  writes g q = false -> get g (run (p ++ Assign g v :: q) r) = v.
Proof.
  intros Hw.
  rewrite run_app, run_cons, (get_run_unwritten g q _ Hw).
  apply get_set_same.
Qed.

(** *** The sentinel *)

(** X8: a [float] member that the producer never assigns reads as the
    sentinel after any sequence of assignments, and [isnan] is true of
    it: a value left out stays recognisable as missing. *)
Theorem unassigned_float_stays_missing (f : field) (prog : list assignment) :
  In f scalar_float_fields ->
  writes f prog = false ->
  exists x : float,
    read_float f (construct prog) = Some x
    /\ float_bits x = float_bits NaN
    /\ isnan x = true.
Proof.
  intros Hin Hw; exists NaN.
  pose proof (signaling_isnan NaN NaN_signaling) as Hnan.
  unfold read_float, construct.
  rewrite (get_run_unwritten f prog _ Hw).
  simpl in Hin.
  repeat (destruct Hin as [<- | Hin]; [repeat split; assumption | ]).
  contradiction.
Qed.

(** X9: comparing a [float] with itself by [==] is true exactly when it
    is not a NaN, so in every record the members failing [x == x] are the
    ones [isnan] reports. *)
Theorem float_self_comparison (x : float) :
  float_eq x x = negb (isnan x).
Proof.
  unfold float_eq, SpecFloat.SFeqb.
  destruct (isnan x) eqn:Hnan.
  - rewrite (isnan_decode x Hnan); reflexivity.
  - rewrite SFcompare_refl; [reflexivity | ].
    intros Hd; apply float_decode_nan in Hd; congruence.
Qed.

(** *** The daughter count *)

(** X10: when the count agrees with the daughter sequence, [nprim] is not
    negative and [prim] has fewer than 2^31 entries, [nprim] being an
    [int]. *)
Theorem count_matches_bounds (r : SRTrueInteraction) :
  count_matches r ->
  0 <= int_val (nprim r) /\ Z.of_nat (List.length (prim r)) < 2 ^ 31.
Proof.
  unfold count_matches; intros H.
  pose proof (int_val_bounds (nprim r)) as Hb.
  pose proof (Nat2Z.is_nonneg (List.length (prim r))) as Hn.
  lia.
Qed.

End SRTrueInteraction.

Arguments SRTrueInteraction_default {SRVector3D} SRVector3D_default {SRTrueParticle} NaN.
Arguments get {SRVector3D SRTrueParticle} f r.
Arguments set {SRVector3D SRTrueParticle} f v r.
Arguments Assign {SRVector3D SRTrueParticle} f v.
Arguments exec {SRVector3D SRTrueParticle} a r.
Arguments run {SRVector3D SRTrueParticle} prog r.
Arguments construct {SRVector3D} SRVector3D_default {SRTrueParticle} NaN prog.
Arguments read_float {SRVector3D SRTrueParticle} f r.
Arguments read_Z {SRVector3D SRTrueParticle} f r.
Arguments read_bool {SRVector3D SRTrueParticle} f r.
Arguments count_matches {SRVector3D SRTrueParticle} r.
Arguments writes_count {SRVector3D SRTrueParticle} a.
Arguments writes {SRVector3D SRTrueParticle} g prog.
Arguments nprim {SRVector3D SRTrueParticle} s.
Arguments prim {SRVector3D SRTrueParticle} s.
Arguments parent_dcy_mode {SRVector3D SRTrueParticle} s.

(* ================================================================== *)
(** ** The contract at a concrete instance

    The sentinel is the pattern [0x7FA00000], vectors are triples of
    floats and a daughter is its PDG code. *)

Lemma default_floats_are_sentinel_E :
  In f_E scalar_float_fields
  /\ exists x : float,
       read_float f_E
         (SRTrueInteraction_default (SRTrueParticle := Daughter)
            Vec3_NaN sNaN_7FA00000) = Some x
       /\ float_bits x = 0x7FA00000
       /\ is_signaling_NaN x = true.
Proof.
  split; [left; reflexivity | ].
  apply (default_floats_are_sentinel Vec3 Vec3_NaN Daughter sNaN_7FA00000
           eq_refl f_E).
  left; reflexivity.
Defined.

(** The default of [parent_dcy_mode] is -1, so not every plain integer
    member is zero after default construction. *)
Lemma default_parent_dcy_mode_nonzero :
  ~ (forall f : field,
       In f plain_integer_fields ->
       read_Z f
         (SRTrueInteraction_default (SRTrueParticle := Daughter)
            Vec3_NaN sNaN_7FA00000) = Some 0).
Proof.
  intros H.
  assert (Hin : In f_parent_dcy_mode plain_integer_fields)
    by (simpl; tauto).
  specialize (H f_parent_dcy_mode Hin).
  discriminate H.
Qed.

Lemma default_integers_parent_dcy_mode :
  In f_parent_dcy_mode plain_integer_fields
  /\ read_Z f_parent_dcy_mode
       (SRTrueInteraction_default (SRTrueParticle := Daughter)
          Vec3_NaN sNaN_7FA00000) = Some (-1).
Proof.
  assert (Hin : In f_parent_dcy_mode plain_integer_fields)
    by (do 5 right; left; reflexivity).
  split; [exact Hin | ].
  exact (proj1 (default_integers Vec3 Vec3_NaN Daughter sNaN_7FA00000
                  f_parent_dcy_mode Hin)).
Defined.

(** A count of 2 with a single daughter: [nprim] and the length of [prim]
    differ, so the equality does not hold of every record. *)
Lemma count_two_one_daughter :
  ~ (forall r : SRTrueInteraction Vec3 Daughter, count_matches r).
Proof.
  intros H.
  specialize
    (H (construct Vec3_NaN sNaN_7FA00000
          [Assign f_nprim (i32 2); Assign f_prim [i32 13]])).
  discriminate H.
Qed.

(** Two daughters with a count of 2: filling in the kinematics keeps the
    count in step with the sequence. *)
Lemma count_matches_kept_kinematics :
  count_matches
    (run [Assign f_E float_one; Assign f_pdg (i32 14); Assign f_iscc true]
       (construct (SRTrueParticle := Daughter) Vec3_NaN sNaN_7FA00000
          [Assign f_prim [i32 13; i32 2212]; Assign f_nprim (i32 2)])).
Proof.
  apply (proj1 (proj2 (count_matches_kept Vec3 Vec3_NaN Daughter
                         sNaN_7FA00000))).
  - reflexivity.
  - reflexivity.
Defined.

Lemma assignment_frame_nprim_prim :
  get f_prim
    (exec (Assign f_nprim (i32 2))
       (SRTrueInteraction_default (SRTrueParticle := Daughter)
          Vec3_NaN sNaN_7FA00000))
  = [].
Proof.
  apply (assignment_frame Vec3 Daughter (Assign f_nprim (i32 2)) f_prim).
  discriminate.
Defined.

Lemma sentinel_never_compares_equal_E :
  exists x : float,
    read_float f_E
      (SRTrueInteraction_default (SRTrueParticle := Daughter)
         Vec3_NaN sNaN_7FA00000) = Some x
    /\ float_eq x sNaN_7FA00000 = false
    /\ float_eq sNaN_7FA00000 x = false
    /\ float_eq x x = false
    /\ isnan x = true
    /\ forall y : float, float_eq y sNaN_7FA00000 = false.
Proof.
  apply (sentinel_never_compares_equal Vec3 Vec3_NaN Daughter sNaN_7FA00000
           eq_refl f_E).
  left; reflexivity.
Defined.

(** Energy then probe code, or probe code then energy: the same record. *)
Lemma record_extensionality_two_orders :
  construct (SRTrueParticle := Daughter) Vec3_NaN sNaN_7FA00000
    [Assign f_E float_one; Assign f_pdg (i32 14)]
  = construct Vec3_NaN sNaN_7FA00000
      [Assign f_pdg (i32 14); Assign f_E float_one].
Proof.
  apply (record_extensionality Vec3 Daughter).
  intros f; destruct f; reflexivity.
Defined.


Lemma unwritten_member_keeps_default_mode :
  get f_mode
    (construct (SRTrueParticle := Daughter) Vec3_NaN sNaN_7FA00000
       [Assign f_E float_one; Assign f_pdg (i32 14)])
  = ScatteringMode_enum kUnknownMode.
Proof.
  apply (unwritten_member_keeps_default Vec3 Vec3_NaN Daughter sNaN_7FA00000
           f_mode).
  reflexivity.
Defined.

Lemma last_assignment_wins_nprim :
  get f_nprim
    (run (SRTrueParticle := Daughter)
       ([Assign f_nprim (i32 5)]
          ++ Assign f_nprim (i32 2) :: [Assign f_E float_one])
       (SRTrueInteraction_default Vec3_NaN sNaN_7FA00000))
  = i32 2.
Proof.
  apply (last_assignment_wins Vec3 Daughter f_nprim (i32 2)).
  reflexivity.
Defined.

Lemma unassigned_float_stays_missing_Q2 :
  exists x : float,
    read_float f_Q2
      (construct (SRTrueParticle := Daughter) Vec3_NaN sNaN_7FA00000
         [Assign f_E float_one; Assign f_pdg (i32 14)]) = Some x
    /\ float_bits x = 0x7FA00000
    /\ isnan x = true.
Proof.
  apply (unassigned_float_stays_missing Vec3 Vec3_NaN Daughter sNaN_7FA00000
           eq_refl f_Q2).
  - do 4 right; left; reflexivity.
  - reflexivity.
Defined.

Lemma count_matches_bounds_two_daughters :
  0 <= 2 /\ 2 < 2 ^ 31.
Proof.
  apply (count_matches_bounds Vec3 Daughter
           (construct Vec3_NaN sNaN_7FA00000
              [Assign f_prim [i32 13; i32 2212]; Assign f_nprim (i32 2)])).
  reflexivity.
Defined.
